(** * webexteamssdk.aio.api.messages: the asynchronous Messages API wrapper

    A shallow embedding of [AsyncMessagesAPI] (list, create, get, delete)
    and the properties of its request-shape logic.

    Python values are a small universe [pyval]; dictionaries are
    insertion-ordered association lists with unique keys, because the
    multipart writer emits one part per [post_data.items()] entry in that
    order.  Effects (requests handed to the session, file objects opened and
    closed, live generators, exceptions) are threaded through a state and
    exception monad over [world].  The collaborators the module imports and
    does not define (the REST session, the object factory, the URL and file
    predicates, aiohttp's payload registry) are section variables. *)

From stdpp Require Import base option list strings gmap.
From Stdlib Require Import ZArith Ascii ssreflect.

#[local] Set Warnings "-register-all,-rewrite-rw".

(** ** Python values *)

Inductive pyval : Type :=
| PNone
| PBool (b : bool)
| PInt (n : Z)
| PStr (s : string)
| PList (items : list pyval)
| PDict (entries : list (string * pyval))
| PCard (card : string).            (* an AdaptiveCard instance *)

(** The classes the module hands to [check_type] and [isinstance]. *)
Inductive pytype : Type := Tstr | Tint | Tlist | Tdict | TAdaptiveCard.

(** [isinstance(obj, t)]; [bool] is a subclass of [int]. *)
Definition isinstance (obj : pyval) (t : pytype) : bool :=
  match obj, t with
  | PStr _, Tstr => true
  | PInt _, Tint => true
  | PBool _, Tint => true
  | PList _, Tlist => true
  | PDict _, Tdict => true
  | PCard _, TAdaptiveCard => true
  | _, _ => false
  end.

(** Truth value of an object, as tested by [if files:] and [if attachments:]. *)
Definition truthy (obj : pyval) : bool :=
  match obj with
  | PNone => false
  | PBool b => b
  | PInt n => negb (n =? 0)%Z
  | PStr s => negb (String.eqb s EmptyString)
  | PList items => match items with [] => false | _ => true end
  | PDict entries => match entries with [] => false | _ => true end
  | PCard _ => true
  end.

Definition is_none (obj : pyval) : bool :=
  match obj with PNone => true | _ => false end.

(** ** Dictionaries *)

Definition dict : Type := list (string * pyval).

Fixpoint dict_get (k : string) (d : dict) : option pyval :=
  match d with
  | [] => None
  | (k', v) :: rest => if String.eqb k k' then Some v else dict_get k rest
  end.

(** [d[k] = v]: an existing key keeps its position, a new one goes last. *)
Fixpoint dict_set (k : string) (v : pyval) (d : dict) : dict :=
  match d with
  | [] => [(k, v)]
  | (k', v') :: rest =>
      if String.eqb k k' then (k, v) :: rest else (k', v') :: dict_set k v rest
  end.

(** [d.pop(k, None)], keeping the dictionary only. *)
Fixpoint dict_pop (k : string) (d : dict) : dict :=
  match d with
  | [] => []
  | (k', v) :: rest =>
      if String.eqb k k' then dict_pop k rest else (k', v) :: dict_pop k rest
  end.

Definition dict_keys (d : dict) : list string := map fst d.

(** ** Exceptions and the outcome of a call *)

Inductive exn : Type :=
| TypeError (msg : string)
| ValueError (msg : string)
| UnboundLocalError (name : string)
| OSError (msg : string)
| ApiError (status : Z) (msg : string).

Inductive result (A : Type) : Type :=
| Ok (a : A)
| Raise (e : exn).
Arguments Ok {A} a.
Arguments Raise {A} e.

(** ** Requests handed to the session *)

(** The body of one multipart part: an open file object or a plain value. *)
Inductive part_body : Type :=
| FileBody (file_object : nat)
| ValueBody (v : pyval).

Record part : Type := Part {
  part_body_of : part_body;
  part_headers : list (string * string)
}.

(** [aiohttp.MultipartWriter]: the parts appended so far and the boundary. *)
Record MultipartWriter : Type := Mp {
  mp_parts : list part;
  mp_boundary : string
}.

Inductive request : Type :=
| GetItems (url : string) (params : dict)
| PostJson (url : string) (json : dict)
| PostData (url : string) (headers : list (string * string)) (data : MultipartWriter)
| Get (url : string)
| Delete (url : string).

(** [EncodableFile], the named tuple [open_local_file] returns. *)
Record EncodableFile : Type := Encodable {
  file_name : string;
  file_object : nat
}.

(** ** The world a call runs in *)

(** State of one generator object made from [list]'s body. *)
Inductive gen_state (A : Type) : Type :=
| GenCreated (args : A)              (* body not entered yet *)
| GenSuspended (pending : list pyval) (* inside the [for item in items] loop *)
| GenFinished.
Arguments GenCreated {A} args.
Arguments GenSuspended {A} pending.
Arguments GenFinished {A}.

Record list_args : Type := ListArgs {
  l_roomId : pyval;
  l_mentionedPeople : pyval;
  l_before : pyval;
  l_beforeMessage : pyval;
  l_max : pyval;
  l_request_parameters : dict
}.

Record world : Type := World {
  sent : list request;           (* requests given to the session, oldest first *)
  open_files : gset nat;         (* file objects that are open *)
  next_file : nat;               (* the next file object *)
  generators : gmap nat (gen_state list_args);
  next_gen : nat
}.

Definition M (A : Type) : Type := world -> result A * world.

#[global] Instance M_ret : MRet M := fun A a w => (Ok a, w).
#[global] Instance M_bind : MBind M := fun A B f m w =>
  match m w with
  | (Ok a, w') => f a w'
  | (Raise e, w') => (Raise e, w')
  end.

Definition raise {A : Type} (e : exn) : M A := fun w => (Raise e, w).

Definition outcome {A : Type} (r : result A * world) : result A := fst r.
Definition final {A : Type} (r : result A * world) : world := snd r.

(** The requests a run added to the session's log. *)
Definition requests_of {A : Type} (m : M A) (w : world) : list request :=
  drop (length (sent w)) (sent (final (m w))).

(** ** Helpers imported from [webexteamssdk.aio.utils] *)

(** Modelled from the spec: [check_type] is imported from
    [webexteamssdk.aio.utils], which is not among the sources.  The spec
    calls it dynamic type-checking of arguments whose failure is a type
    error ("wrong argument type"), optional parameters being checked only
    when present; the docstrings of the callers say [TypeError: If the
    parameter types are incorrect]. *)
Definition type_ok (obj : pyval) (acceptable_types : list pytype) (optional : bool) : bool :=
  existsb (isinstance obj) acceptable_types || (optional && is_none obj).

Definition check_type (obj : pyval) (acceptable_types : list pytype) (optional : bool) : M unit :=
  if type_ok obj acceptable_types optional then mret tt
  else raise (TypeError "unexpected argument type").

(** Modelled from the spec: [dict_from_items_with_values] is imported from
    [webexteamssdk.aio.utils], which is not among the sources.  The spec
    says it builds the filtered mapping from all provided fields, omitting
    every key whose value is absent ([None]).  The positional dictionaries
    come first, the keyword items after them. *)
Definition add_items_with_values (result : dict) (items : dict) : dict :=
  fold_left (fun acc kv => if is_none (snd kv) then acc else dict_set (fst kv) (snd kv) acc)
            items result.

Definition dict_from_items_with_values (dictionaries : list dict) (items : dict) : dict :=
  fold_left add_items_with_values (dictionaries ++ [items]) [].

(** ** Constants of the module *)

Definition API_ENDPOINT : string := "messages".
Definition OBJECT_TYPE : string := "message".

Definition files_length_message : string :=
  "The `files` parameter should be a list with " +:+
  "exactly one (1) item. The files parameter " +:+
  "is a list, which accepts multiple values to " +:+
  "allow for future expansion, but currently " +:+
  "only one file may be included with the " +:+
  "message.".

Definition files_invalid_message : string :=
  "The `files` parameter does not contain a vaild " +:+
  "URL or path to a local file.".

(** The double quote of the f-strings. *)
Definition dq : string := String "034"%char EmptyString.

Definition file_disposition (name : string) : string :=
  "form-data; name=" +:+ dq +:+ "files" +:+ dq +:+ "; filename=" +:+ dq +:+ name +:+ dq.

Definition field_disposition (k : string) : string :=
  "form-data; name=" +:+ dq +:+ k +:+ dq.

Definition multipart_content_type (boundary : string) : string :=
  "multipart/form-data; boundary=" +:+ boundary.

(** ** World updates *)

Definition log_request (req : request) (w : world) : world :=
  World (sent w ++ [req]) (open_files w) (next_file w) (generators w) (next_gen w).

Definition set_open_files (fs : gset nat) (n : nat) (w : world) : world :=
  World (sent w) fs n (generators w) (next_gen w).

Definition set_generator (g : nat) (st : gen_state list_args) (w : world) : world :=
  World (sent w) (open_files w) (next_file w) (<[g := st]> (generators w)) (next_gen w).

Record create_args : Type := CreateArgs {
  roomId : pyval;
  toPersonId : pyval;
  toPersonEmail : pyval;
  text : pyval;
  markdown : pyval;
  files : pyval;
  attachments : pyval;
  request_parameters : dict
}.

(** [list(...)] returns a container that remembers the call's arguments. *)
Record GeneratorContainer : Type := Container { gc_args : list_args }.

(** ** A concrete instance of the collaborators

    Used to run the embedding on explicit inputs: a session that answers
    every request, a file system with two files, one of them unreadable. *)

Module Demo.

Definition is_web_url (s : string) : bool :=
  String.prefix "http://" s || String.prefix "https://" s.

(** Two files exist; the second cannot be opened for reading. *)
Definition is_local_file (s : string) : bool :=
  String.eqb s "/tmp/report.pdf" || String.eqb s "/root/locked.bin".

Definition os_open (s : string) : option exn :=
  if String.eqb s "/root/locked.bin" then Some (OSError "Permission denied")
  else None.

Fixpoint basename_from (acc s : string) : string :=
  match s with
  | EmptyString => acc
  | String c rest =>
      if Ascii.eqb c "/"%char then basename_from EmptyString rest
      else basename_from (acc +:+ String c EmptyString) rest
  end.

Definition basename (s : string) : string := basename_from EmptyString s.

Definition make_attachment (card : pyval) : pyval :=
  PDict [("contentType", PStr "application/vnd.microsoft.card.adaptive");
         ("content", match card with
                     | PCard c => PDict [("type", PStr "AdaptiveCard"); ("id", PStr c)]
                     | other => other
                     end)].

(** aiohttp makes payloads of strings, not of lists. *)
Definition appendable (v : pyval) : bool := isinstance v Tstr.

(** A registry that makes a payload of anything. *)
Definition any_payload (v : pyval) : bool := true.

Definition boundary : string := "0123456789abcdef".

Definition respond (history : list request) (req : request) : result pyval :=
  match req with
  | PostJson _ json => Ok (PDict (("id", PStr "M1") :: json))
  | PostData _ _ _ => Ok (PDict [("id", PStr "M2")])
  | Get url => Ok (PDict [("id", PStr url)])
  | _ => Ok PNone
  end.

(** The room holds one message more each time it is listed. *)
Definition respond_items (history : list request) (req : request)
  : result (list pyval) :=
  Ok (map (fun _ => PDict [("id", PStr "M")]) (req :: history)).

Definition object_factory (tag : string) (json : pyval) : pyval :=
  PDict [("object", PStr tag); ("json", json)].

Definition w0 : world := World [] ∅ 0 ∅ 0.

(** [create(roomId="R1", text="hello", files=..., attachments=...)] *)
Definition to_room (files attachments : pyval) : create_args :=
  CreateArgs (PStr "R1") PNone PNone (PStr "hello") PNone files attachments [].

(** [list(roomId="R1", max=50)] *)
Definition room_listing : list_args :=
  ListArgs (PStr "R1") PNone PNone PNone (PInt 50) [].

Definition card_and_mapping : pyval :=
  PList [PCard "c1"; PDict [("contentType", PStr "text/plain")]].

Definition one_mapping : pyval :=
  PList [PDict [("contentType", PStr "text/plain")]].

End Demo.

Section MessagesAPI.

(** *** Collaborators *)

(** [is_web_url] and [is_local_file] of [webexteamssdk.aio.utils]. *)
Variable is_web_url : string -> bool.
Variable is_local_file : string -> bool.
(** What [open(path, "rb")] does: [None] when the file opens, the I/O
    error otherwise; and [os.path.basename]. *)
Variable os_open : string -> option exn.
Variable basename : string -> string.
(** [make_attachment] of [webexteamssdk.aio.utils]. *)
Variable make_attachment : pyval -> pyval.
(** Whether aiohttp can make a payload of a value ([append] raises
    [TypeError] when it cannot), and the boundary a writer generates. *)
Variable appendable : pyval -> bool.
Variable boundary : string.
(** The REST session: its answer to a request, given the requests made
    before it. *)
Variable respond : list request -> request -> result pyval.
Variable respond_items : list request -> request -> result (list pyval).
(** The object factory. *)
Variable object_factory : string -> pyval -> pyval.

(** *** The session *)

Definition session_call (req : request) : M pyval :=
  fun w => (respond (sent w) req, log_request req w).

Definition session_get_items (url : string) (params : dict) : M (list pyval) :=
  fun w => (respond_items (sent w) (GetItems url params), log_request (GetItems url params) w).

(** *** Local files *)

(** Modelled from the spec: [open_local_file] is imported from
    [webexteamssdk.aio.utils], which is not among the sources.  The spec
    describes a scoped resource wrapping an open file descriptor and its
    filename; a failure to open surfaces as the underlying I/O error. *)
Definition open_local_file (file_path : string) : M EncodableFile :=
  fun w =>
    match os_open file_path with
    | Some e => (Raise e, w)
    | None =>
        (Ok (Encodable (basename file_path) (next_file w)),
         set_open_files ({[next_file w]} ∪ open_files w) (S (next_file w)) w)
    end.

(** [file_object.closed] and [file_object.close()]. *)
Definition closed (f : nat) : M bool :=
  fun w => (Ok (bool_decide (f ∉ open_files w)), w).

Definition close (f : nat) : M unit :=
  fun w => (Ok tt, set_open_files (open_files w ∖ {[f]}) (next_file w) w).

(** *** The multipart writer *)

Definition mp_append (mp : MultipartWriter) (p : part) : MultipartWriter :=
  Mp (mp_parts mp ++ [p]) (mp_boundary mp).

(** [payload = mpwriter.append(v)] followed by the assignment of the
    payload's Content-Disposition header. *)
Definition append_value (mp : MultipartWriter) (v : pyval) (disposition : string)
  : M MultipartWriter :=
  if appendable v
  then mret (mp_append mp (Part (ValueBody v) [("Content-Disposition", disposition)]))
  else raise (TypeError "Cannot create payload").

Definition append_file (mp : MultipartWriter) (f : nat) (disposition : string)
  : MultipartWriter :=
  mp_append mp (Part (FileBody f) [("Content-Disposition", disposition)]).

(** [for k, v in post_data.items(): ...] *)
Fixpoint append_fields (items : dict) (mp : MultipartWriter) : M MultipartWriter :=
  match items with
  | [] => mret mp
  | (k, v) :: rest =>
      mp' ← append_value mp v (field_disposition k);
      append_fields rest mp'
  end.

(** *** create *)

Definition len (obj : pyval) : nat :=
  match obj with
  | PList items => length items
  | PDict entries => length entries
  | PStr s => String.length s
  | _ => 0
  end.

(** [obj[0]] *)
Definition first_item (obj : pyval) : M pyval :=
  match obj with
  | PList (x :: _) => mret x
  | _ => raise (TypeError "object has no first item")
  end.

Definition str_of (obj : pyval) : M string :=
  match obj with
  | PStr s => mret s
  | _ => raise (TypeError "expected str")
  end.

(** [obj[item] = v] *)
Definition set_item (obj : pyval) (item : nat) (v : pyval) : M pyval :=
  match obj with
  | PList items => mret (PList (<[item := v]> items))
  | _ => raise (TypeError "object does not support item assignment")
  end.

(** Lines 192-204: the [files] list is checked and an empty one becomes
    [None]. *)
Definition normalize_files (files : pyval) : M pyval :=
  if truthy files then
    (if (1 <? len files)%nat
     then raise (ValueError files_length_message) else mret tt);;
    f0 ← first_item files;
    check_type f0 [Tstr] false;;
    mret files
  else mret PNone.

(** Lines 208-212: the loop over [enumerate(attachments)].  The test of
    line 211 is on [attachments], the whole list, as the source has it. *)
Fixpoint serialize_loop (pending : list pyval) (item : nat) (attachments : pyval)
  : M pyval :=
  match pending with
  | [] => mret attachments
  | attachment :: rest =>
      check_type attachment [Tdict; TAdaptiveCard] false;;
      attachments' ← (if isinstance attachments TAdaptiveCard
                      then set_item attachments item (make_attachment attachment)
                      else mret attachments);
      serialize_loop rest (S item) attachments'
  end.

Definition process_attachments (attachments : pyval) : M pyval :=
  if truthy attachments then
    match attachments with
    | PList items => serialize_loop items 0 attachments
    | _ => raise (TypeError "object is not iterable")
    end
  else mret attachments.

(** Lines 214-223: the keyword items of the call and the dictionary made
    of them. *)
Definition create_items (a : create_args) (files attachments : pyval) : dict :=
  [("roomId", roomId a); ("toPersonId", toPersonId a);
   ("toPersonEmail", toPersonEmail a); ("text", text a);
   ("markdown", markdown a); ("files", files); ("attachments", attachments)].

Definition post_data_of (a : create_args) (files attachments : pyval) : dict :=
  dict_from_items_with_values [request_parameters a]
    (create_items a files attachments).

(** The fields left in [post_data] after the two [pop] calls of lines
    233-234; the second key is spelled as in the source. *)
Definition multipart_fields (post_data : dict) : dict :=
  dict_pop "attachements" (dict_pop "files" post_data).

(** Lines 236-253, once [file] is bound: the writer is filled and posted. *)
Definition write_and_post (post_data : dict) (file : EncodableFile) : M pyval :=
  let mpwriter := Mp [] boundary in
  let mpwriter := append_file mpwriter (file_object file)
                    (file_disposition (file_name file)) in
  mpwriter ← append_fields post_data mpwriter;
  session_call
    (PostData API_ENDPOINT
       [("Content-type", multipart_content_type (mp_boundary mpwriter))] mpwriter).

(** The [try] suite of lines 233-253.  Besides its outcome it gives the
    binding of the local variable [file] at the point the suite is left:
    [None] while [file] is unbound. *)
Definition multipart_try (post_data : dict) (path : string)
  : world -> (option EncodableFile * result pyval) * world :=
  fun w =>
    let post_data := multipart_fields post_data in
    match open_local_file path w with
    | (Raise e, w1) => ((None, Raise e), w1)
    | (Ok file, w1) =>
        let '(r, w2) := write_and_post post_data file w1 in
        ((Some file, r), w2)
    end.

(** The [finally] suite of lines 255-256; reading an unbound local
    raises [UnboundLocalError]. *)
Definition multipart_finally (file : option EncodableFile) : M unit :=
  match file with
  | None => raise (UnboundLocalError "file")
  | Some f =>
      c ← closed (file_object f);
      if negb c then close (file_object f) else mret tt
  end.

(** [try: ... finally: ...]: an exception of the [finally] suite replaces
    the outcome of the [try] suite. *)
Definition multipart_post (post_data : dict) (path : string) : M pyval :=
  fun w =>
    let '((file, r), w1) := multipart_try post_data path w in
    match multipart_finally file w1 with
    | (Raise e, w2) => (Raise e, w2)
    | (Ok _, w2) => (r, w2)
    end.

(** Lines 226-261: the request-shape decision. *)
Definition send_message (files : pyval) (post_data : dict) : M pyval :=
  if negb (truthy files) then session_call (PostJson API_ENDPOINT post_data)
  else
    f0 ← first_item files;
    path ← str_of f0;
    if is_web_url path then session_call (PostJson API_ENDPOINT post_data)
    else if is_local_file path then multipart_post post_data path
    else raise (ValueError files_invalid_message).

Definition create (a : create_args) : M pyval :=
  check_type (roomId a) [Tstr] true;;
  check_type (toPersonId a) [Tstr] true;;
  check_type (toPersonEmail a) [Tstr] true;;
  check_type (text a) [Tstr] true;;
  check_type (markdown a) [Tstr] true;;
  check_type (files a) [Tlist] true;;
  check_type (attachments a) [Tlist] true;;
  files ← normalize_files (files a);
  attachments ← process_attachments (attachments a);
  json_data ← send_message files (post_data_of a files attachments);
  mret (object_factory OBJECT_TYPE json_data).

(** *** get and delete *)

Definition get (messageId : pyval) : M pyval :=
  check_type messageId [Tstr] false;;
  id ← str_of messageId;
  json_data ← session_call (Get (API_ENDPOINT +:+ "/" +:+ id));
  mret (object_factory OBJECT_TYPE json_data).

Definition delete (messageId : pyval) : M unit :=
  check_type messageId [Tstr] false;;
  id ← str_of messageId;
  session_call (Delete (API_ENDPOINT +:+ "/" +:+ id));;
  mret tt.

(** *** list *)

(** Lines 123-130. *)
Definition list_items (a : list_args) : dict :=
  [("roomId", l_roomId a); ("mentionedPeople", l_mentionedPeople a);
   ("before", l_before a); ("beforeMessage", l_beforeMessage a);
   ("max", l_max a)].

Definition list_params (a : list_args) : dict :=
  dict_from_items_with_values [l_request_parameters a] (list_items a).

(** Lines 117-133: the generator's body up to its [for] loop. *)
Definition list_body (a : list_args) : M (list pyval) :=
  check_type (l_roomId a) [Tstr] false;;
  check_type (l_mentionedPeople a) [Tstr] true;;
  check_type (l_before a) [Tstr] true;;
  check_type (l_beforeMessage a) [Tstr] true;;
  check_type (l_max a) [Tint] true;;
  session_get_items API_ENDPOINT (list_params a).

(** Modelled from the spec: [async_generator_container] is imported from
    [webexteamssdk.aio.generator_containers], which is not among the
    sources.  The spec describes a container of generators: a value that
    holds the call's arguments and produces a fresh generator each time
    iteration is requested; the docstring of [list] says a new API call
    is made, with the parameters given when the container was created,
    every time a new iterator is requested.  This is the source's
    [list]; the underscore keeps the type of lists in reach. *)
Definition list_ (a : list_args) : GeneratorContainer := Container a.

(** [container.__aiter__()]: a new generator object, its body not yet run. *)
Definition aiter (c : GeneratorContainer) : M nat :=
  fun w =>
    (Ok (next_gen w),
     World (sent w) (open_files w) (next_file w)
           (<[next_gen w := GenCreated (gc_args c)]> (generators w))
           (S (next_gen w))).

(** Lines 136-137: the loop yields one constructed object per item;
    [None] stands for [StopAsyncIteration]. *)
Definition resume (g : nat) (pending : list pyval) : M (option pyval) :=
  fun w =>
    match pending with
    | [] => (Ok None, set_generator g GenFinished w)
    | item :: rest =>
        (Ok (Some (object_factory OBJECT_TYPE item)),
         set_generator g (GenSuspended rest) w)
    end.

(** [generator.__anext__()] *)
Definition anext (g : nat) : M (option pyval) :=
  fun w =>
    match generators w !! g with
    | None => (Raise (TypeError "not a generator"), w)
    | Some (GenCreated a) =>
        match list_body a w with
        | (Raise e, w1) => (Raise e, set_generator g GenFinished w1)
        | (Ok items, w1) => resume g items w1
        end
    | Some (GenSuspended pending) => resume g pending w
    | Some GenFinished => (Ok None, w)
    end.

(** [[item async for item in generator]], with a bound on the number of
    [__anext__] calls. *)
Fixpoint consume (fuel : nat) (g : nat) : M (option (list pyval)) :=
  match fuel with
  | O => mret None
  | S fuel' =>
      x ← anext g;
      match x with
      | None => mret (Some [])
      | Some item =>
          rest ← consume fuel' g;
          mret (cons item <$> rest)
      end
  end.



(** *** Notions used in the statements *)

(** The calls that pass every check of lines 184-212. *)
Definition files_accepted (files : pyval) : bool :=
  match files with
  | PNone => true
  | PList [] => true
  | PList [PStr _] => true
  | _ => false
  end.

Definition attachments_accepted (attachments : pyval) : bool :=
  match attachments with
  | PNone => true
  | PList items => forallb (fun x => type_ok x [Tdict; TAdaptiveCard] false) items
  | _ => false
  end.

Definition scalars_accepted (a : create_args) : bool :=
  type_ok (roomId a) [Tstr] true && type_ok (toPersonId a) [Tstr] true &&
  type_ok (toPersonEmail a) [Tstr] true && type_ok (text a) [Tstr] true &&
  type_ok (markdown a) [Tstr] true.

Definition accepted (a : create_args) : bool :=
  scalars_accepted a && files_accepted (files a) &&
  attachments_accepted (attachments a).

Definition list_accepted (a : list_args) : bool :=
  type_ok (l_roomId a) [Tstr] false && type_ok (l_mentionedPeople a) [Tstr] true &&
  type_ok (l_before a) [Tstr] true && type_ok (l_beforeMessage a) [Tstr] true &&
  type_ok (l_max a) [Tint] true.

(** The value of the local [files] after lines 192-204. *)
Definition normal_files (files : pyval) : pyval :=
  if truthy files then files else PNone.

(** The errors raised before any network call. *)
Definition validation_error (e : exn) : Prop :=
  match e with
  | TypeError _ | ValueError _ => True
  | _ => False
  end.

(** The keyword dictionary of a call cannot bind the name of a declared
    parameter: Python binds such a keyword to the parameter itself. *)
Definition create_parameter_names : list string :=
  ["roomId"; "toPersonId"; "toPersonEmail"; "text"; "markdown"; "files";
   "attachments"].

Definition list_parameter_names : list string :=
  ["roomId"; "mentionedPeople"; "before"; "beforeMessage"; "max"].

Definition extra_only (names : list string) (kwargs : dict) : Prop :=
  Forall (fun k => dict_get k kwargs = None) names.

(** Every keyword item left at [None] has no key in the mapping. *)
Definition unset_absent (items d : dict) : Prop :=
  forall k, (k, PNone) ∈ items -> dict_get k d = None.

(** Iterating a container twice, each time to the end, with bounds on the
    number of [__anext__] calls. *)
Definition iterate_twice (c : GeneratorContainer) (n1 n2 : nat)
  : M (option (list pyval) * option (list pyval)) :=
  g1 ← aiter c;
  xs ← consume n1 g1;
  g2 ← aiter c;
  ys ← consume n2 g2;
  mret (xs, ys).

(** A mapping without a null value. *)
Definition no_null (d : dict) : Prop :=
  Forall (fun kv => snd kv <> PNone) d.

(** The object made of the session's answer. *)
Definition constructed (r : result pyval) : result pyval :=
  match r with
  | Ok json_data => Ok (object_factory OBJECT_TYPE json_data)
  | Raise e => Raise e
  end.

(** The multipart body of lines 236-245 for a bound [file]. *)
Definition field_part (kv : string * pyval) : part :=
  Part (ValueBody (snd kv)) [("Content-Disposition", field_disposition (fst kv))].

Definition file_part (file : EncodableFile) : part :=
  Part (FileBody (file_object file))
       [("Content-Disposition", file_disposition (file_name file))].

Definition multipart_request (post_data : dict) (file : EncodableFile) : request :=
  PostData API_ENDPOINT
    [("Content-type", multipart_content_type boundary)]
    (Mp (file_part file :: map field_part post_data) boundary).

(** The world after an upload that opened one file and handed [reqs] to
    the session: the file object made by the call has been closed. *)
Definition after_upload (w : world) (reqs : list request) : world :=
  World (sent w ++ reqs)
        (({[next_file w]} ∪ open_files w) ∖ {[next_file w]})
        (S (next_file w)) (generators w) (next_gen w).

Definition all_appendable (fields : dict) : bool :=
  forallb (fun kv => appendable (snd kv)) fields.

(** What the specification asks of the attachments: each card serialized,
    each mapping kept. *)
Definition serialized_as_specified (attachments : pyval) : pyval :=
  match attachments with
  | PList items =>
      PList (map (fun x => if isinstance x TAdaptiveCard then make_attachment x else x)
                 items)
  | other => other
  end.

(** *** Dictionaries *)

Lemma dict_get_set_eq k v d : dict_get k (dict_set k v d) = Some v.
Proof.
  induction d as [|[k' v'] d IH]; simpl.
  - by rewrite String.eqb_refl.
  - destruct (String.eqb k k') eqn:E; simpl; rewrite ?String.eqb_refl ?E //.
Qed.

Lemma dict_get_set_ne k k' v d :
  k <> k' -> dict_get k' (dict_set k v d) = dict_get k' d.
Proof.
  intros Hne. induction d as [|[k0 v0] d IH]; simpl.
  - destruct (String.eqb_spec k' k); congruence.
  - destruct (String.eqb_spec k k0) as [->|]; simpl.
    + destruct (String.eqb_spec k' k0); congruence.
    + by rewrite IH.
Qed.

Lemma dict_get_pop_eq k d : dict_get k (dict_pop k d) = None.
Proof.
  induction d as [|[k' v'] d IH]; simpl; [done|].
  destruct (String.eqb k k') eqn:E; simpl; rewrite ?E //.
Qed.

Lemma dict_get_pop_ne k k' d :
  k <> k' -> dict_get k' (dict_pop k d) = dict_get k' d.
Proof.
  intros Hne. induction d as [|[k0 v0] d IH]; simpl; [done|].
  destruct (String.eqb_spec k k0) as [->|]; simpl.
  - destruct (String.eqb_spec k' k0); congruence.
  - by rewrite IH.
Qed.

Lemma dict_get_elem k v (d : dict) : dict_get k d = Some v -> (k, v) ∈ d.
Proof.
  induction d as [|[k0 v0] d IH]; simpl; [done|].
  destruct (String.eqb_spec k k0) as [->|].
  - intros [= ->]. left.
  - intros H. right. auto.
Qed.

Lemma dict_pop_elem k kv (d : dict) : kv ∈ dict_pop k d -> kv ∈ d.
Proof.
  induction d as [|[k0 v0] d IH]; simpl; [done|].
  destruct (String.eqb k k0).
  - intros H. right. auto.
  - intros [->|H]%elem_of_cons; [left | right; auto].
Qed.

Lemma no_null_set k v d : v <> PNone -> no_null d -> no_null (dict_set k v d).
Proof.
  intros Hv. unfold no_null. induction d as [|[k' v'] d IH]; simpl; intros Hd.
  - by constructor.
  - apply Forall_cons in Hd as [Hv' Hd].
    destruct (String.eqb k k'); constructor; auto.
Qed.

Lemma no_null_pop k d : no_null d -> no_null (dict_pop k d).
Proof.
  unfold no_null. induction d as [|[k' v'] d IH]; simpl; intros Hd; [done|].
  apply Forall_cons in Hd as [Hv' Hd].
  destruct (String.eqb k k'); [|constructor]; auto.
Qed.

Lemma no_null_get k d : no_null d -> dict_get k d <> Some PNone.
Proof.
  intros Hd Hk. apply dict_get_elem in Hk.
  unfold no_null in Hd. rewrite Forall_forall in Hd. by apply Hd in Hk.
Qed.

Lemma dict_get_pop_none k k' d : dict_get k' d = None -> dict_get k' (dict_pop k d) = None.
Proof.
  intros H. destruct (decide (k = k')) as [->|Hne].
  - apply dict_get_pop_eq.
  - by rewrite dict_get_pop_ne.
Qed.

Lemma is_none_false v : is_none v = false -> v <> PNone.
Proof. by destruct v. Qed.

Lemma add_items_no_null items d : no_null d -> no_null (add_items_with_values d items).
Proof.
  unfold add_items_with_values. revert d.
  induction items as [|[k v] items IH]; simpl; intros d Hd; [done|].
  apply IH. destruct (is_none v) eqn:E; [done|].
  apply no_null_set; [by apply is_none_false | done].
Qed.

Lemma add_items_absent k items d :
  (forall v, (k, v) ∈ items -> v = PNone) ->
  dict_get k (add_items_with_values d items) = dict_get k d.
Proof.
  unfold add_items_with_values. revert d.
  induction items as [|[k0 v0] items IH]; simpl; intros d H; [done|].
  rewrite IH; [intros v Hv; apply H; by right|].
  destruct (is_none v0) eqn:E; simpl; [done|].
  destruct (decide (k0 = k)) as [->|Hne].
  - specialize (H v0 ltac:(left)). subst. done.
  - by rewrite dict_get_set_ne.
Qed.

Lemma add_items_last k v items d :
  v <> PNone ->
  dict_get k (add_items_with_values d (items ++ [(k, v)])) = Some v.
Proof.
  intros Hv. unfold add_items_with_values. rewrite fold_left_app. simpl.
  destruct v; try done; apply dict_get_set_eq.
Qed.

Lemma from_items_no_null kwargs items :
  no_null (dict_from_items_with_values [kwargs] items).
Proof.
  unfold dict_from_items_with_values. simpl.
  do 2 apply add_items_no_null. constructor.
Qed.

Lemma dict_get_none_elem k v (d : dict) : dict_get k d = None -> (k, v) ∉ d.
Proof.
  induction d as [|[k0 v0] d IH]; simpl; intros H Hin.
  - by apply elem_of_nil in Hin.
  - destruct (String.eqb_spec k k0) as [->|Hne]; [done|].
    apply elem_of_cons in Hin as [[= -> ->]|Hin]; [done|]. by apply IH.
Qed.

Lemma from_items_absent k kwargs items :
  dict_get k kwargs = None ->
  (forall v, (k, v) ∈ items -> v = PNone) ->
  dict_get k (dict_from_items_with_values [kwargs] items) = None.
Proof.
  intros Hk Hi. unfold dict_from_items_with_values. simpl.
  rewrite add_items_absent //.
  rewrite add_items_absent //.
  intros v Hv. by apply dict_get_none_elem with (v := v) in Hk.
Qed.

(** *** Running the monad *)

Lemma bind_run {A B : Type} (m : M A) (f : A -> M B) w :
  (m ≫= f) w =
  match m w with
  | (Ok a, w') => f a w'
  | (Raise e, w') => (Raise e, w')
  end.
Proof. reflexivity. Qed.

Lemma check_type_pass obj ts opt w :
  type_ok obj ts opt = true -> check_type obj ts opt w = (Ok tt, w).
Proof. intros H. unfold check_type. by rewrite H. Qed.

Lemma check_type_fail obj ts opt w :
  type_ok obj ts opt = false ->
  check_type obj ts opt w = (Raise (TypeError "unexpected argument type"), w).
Proof. intros H. unfold check_type. by rewrite H. Qed.

Ltac run_bind := rewrite bind_run; cbv beta iota.
Ltac pass_check := run_bind; rewrite check_type_pass; [assumption | cbv beta iota].

Lemma requests_of_logged {A : Type} (m : M A) w req :
  sent (final (m w)) = sent w ++ [req] -> requests_of m w = [req].
Proof. unfold requests_of. intros ->. by rewrite drop_app_length. Qed.

Lemma requests_of_silent {A : Type} (m : M A) w :
  sent (final (m w)) = sent w -> requests_of m w = [].
Proof. unfold requests_of. intros ->. by rewrite drop_all. Qed.

(** *** The checks of create *)

Lemma files_accepted_list files :
  files_accepted files = true -> type_ok files [Tlist] true = true.
Proof. by destruct files. Qed.

Lemma attachments_accepted_list attachments :
  attachments_accepted attachments = true -> type_ok attachments [Tlist] true = true.
Proof. by destruct attachments. Qed.

Lemma normalize_files_accepted files w :
  files_accepted files = true ->
  normalize_files files w = (Ok (normal_files files), w).
Proof.
  destruct files as [| | | |[|[] []]| |]; try done.
Qed.

Lemma normalize_files_rejected files w :
  files_accepted files = false -> type_ok files [Tlist] true = true ->
  exists e, normalize_files files w = (Raise e, w) /\ validation_error e.
Proof.
  destruct files as [| | | |[|x [|y l]]| |]; try done; intros Hf _.
  - destruct x; try done; by eexists.
  - by eexists.
Qed.

Lemma normalize_files_many items w :
  2 <= length items ->
  normalize_files (PList items) w = (Raise (ValueError files_length_message), w).
Proof.
  destruct items as [|x [|y l]]; simpl; try lia. done.
Qed.

(** The loop of lines 208-212 never rewrites an element: its test is on
    the list, which is no card. *)
Lemma serialize_loop_list pending item items w :
  serialize_loop pending item (PList items) w =
  if forallb (fun x => type_ok x [Tdict; TAdaptiveCard] false) pending
  then (Ok (PList items), w)
  else (Raise (TypeError "unexpected argument type"), w).
Proof.
  revert item. induction pending as [|x pending IH]; intros item; simpl; [done|].
  run_bind. unfold check_type.
  destruct (type_ok x [Tdict; TAdaptiveCard] false); simpl; [|done].
  run_bind. apply IH.
Qed.

Lemma process_attachments_run attachments w :
  type_ok attachments [Tlist] true = true ->
  process_attachments attachments w =
  if attachments_accepted attachments then (Ok attachments, w)
  else (Raise (TypeError "unexpected argument type"), w).
Proof.
  destruct attachments as [| | | |[|x l]| |]; try done.
  intros _. unfold process_attachments, truthy. apply serialize_loop_list.
Qed.

Lemma create_accepted a w :
  accepted a = true ->
  create a w =
  (send_message (normal_files (files a))
     (post_data_of a (normal_files (files a)) (attachments a))
   ≫= fun json_data => mret (object_factory OBJECT_TYPE json_data)) w.
Proof.
  unfold accepted, scalars_accepted.
  intros [[[[[[H1 H2]%andb_prop H3]%andb_prop H4]%andb_prop H5]%andb_prop
            Hf]%andb_prop Ha]%andb_prop.
  pose proof (files_accepted_list _ Hf) as Hfl.
  pose proof (attachments_accepted_list _ Ha) as Hal.
  unfold create. do 7 pass_check.
  run_bind. rewrite normalize_files_accepted //.
  run_bind. rewrite process_attachments_run // Ha. done.
Qed.

Lemma create_rejected a w :
  accepted a = false ->
  exists e, create a w = (Raise e, w) /\ validation_error e.
Proof.
  unfold accepted, scalars_accepted, create. intros H.
  repeat (run_bind;
          match goal with
          | |- context [check_type ?x ?t ?o ?w0] =>
              let E := fresh "E" in
              destruct (type_ok x t o) eqn:E;
              [rewrite (check_type_pass x t o w0 E)
              |rewrite (check_type_fail x t o w0 E); by eexists]
          end; cbv beta iota).
  run_bind.
  destruct (files_accepted (files a)) eqn:Hf.
  - rewrite normalize_files_accepted //. run_bind.
    rewrite process_attachments_run //.
    destruct (attachments_accepted (attachments a)) eqn:Ha; [|by eexists].
    done.
  - destruct (normalize_files_rejected (files a) w) as (e & -> & He); [done..|].
    by exists e.
Qed.

(** *** The multipart upload *)

Lemma append_fields_run items mp w :
  append_fields items mp w =
  if all_appendable items
  then (Ok (Mp (mp_parts mp ++ map field_part items) (mp_boundary mp)), w)
  else (Raise (TypeError "Cannot create payload"), w).
Proof.
  revert mp. induction items as [|[k v] items IH]; intros mp; simpl.
  - rewrite app_nil_r. by destruct mp.
  - run_bind. unfold append_value. destruct (appendable v); simpl; [|done].
    rewrite IH. simpl. by rewrite -app_assoc.
Qed.

Lemma write_and_post_run post_data file w :
  write_and_post post_data file w =
  if all_appendable post_data
  then (respond (sent w) (multipart_request post_data file),
        log_request (multipart_request post_data file) w)
  else (Raise (TypeError "Cannot create payload"), w).
Proof.
  unfold write_and_post. run_bind. rewrite append_fields_run.
  by destruct (all_appendable post_data).
Qed.

Lemma multipart_post_run post_data path w :
  multipart_post post_data path w =
  match os_open path with
  | Some e => (Raise (UnboundLocalError "file"), w)
  | None =>
      let req := multipart_request (multipart_fields post_data)
                   (Encodable (basename path) (next_file w)) in
      if all_appendable (multipart_fields post_data)
      then (respond (sent w) req, after_upload w [req])
      else (Raise (TypeError "Cannot create payload"), after_upload w [])
  end.
Proof.
  unfold multipart_post, multipart_try, open_local_file.
  destruct (os_open path) as [e|]; [done|].
  rewrite write_and_post_run. cbv zeta.
  assert (Hopen : bool_decide (next_file w ∉ {[next_file w]} ∪ open_files w) = false).
  { apply bool_decide_eq_false_2. set_solver. }
  destruct (all_appendable (multipart_fields post_data));
    unfold multipart_finally, mbind, M_bind, closed; simpl;
    rewrite Hopen //; simpl; unfold after_upload; simpl;
    by rewrite ?app_nil_r.
Qed.

Lemma send_message_none post_data w :
  send_message PNone post_data w =
  (respond (sent w) (PostJson API_ENDPOINT post_data),
   log_request (PostJson API_ENDPOINT post_data) w).
Proof. reflexivity. Qed.

Lemma send_message_one path post_data w :
  send_message (PList [PStr path]) post_data w =
  if is_web_url path
  then (respond (sent w) (PostJson API_ENDPOINT post_data),
        log_request (PostJson API_ENDPOINT post_data) w)
  else if is_local_file path then multipart_post post_data path w
  else (Raise (ValueError files_invalid_message), w).
Proof.
  unfold send_message, mbind, M_bind. simpl.
  by destruct (is_web_url path), (is_local_file path).
Qed.

Lemma constructed_run (m : M pyval) w :
  (m ≫= fun json_data => mret (object_factory OBJECT_TYPE json_data)) w =
  (constructed (outcome (m w)), final (m w)).
Proof. rewrite bind_run. by destruct (m w) as [[j|e] w']. Qed.

(** *** The request-shape decision *)

Lemma create_json_run a w :
  accepted a = true ->
  (files a = PNone \/ files a = PList [] \/
   exists url, files a = PList [PStr url] /\ is_web_url url = true) ->
  let req := PostJson API_ENDPOINT
               (post_data_of a (normal_files (files a)) (attachments a)) in
  create a w = (constructed (respond (sent w) req), log_request req w).
Proof.
  intros Ha Hf. rewrite create_accepted // constructed_run.
  destruct Hf as [->|[->|(url & -> & Hurl)]]; simpl normal_files.
  - by rewrite send_message_none.
  - by rewrite send_message_none.
  - by rewrite send_message_one Hurl.
Qed.

Lemma create_invalid_file a w path :
  accepted a = true -> files a = PList [PStr path] ->
  is_web_url path = false -> is_local_file path = false ->
  create a w = (Raise (ValueError files_invalid_message), w).
Proof.
  intros Ha Hf Hu Hl. rewrite create_accepted // constructed_run Hf.
  simpl normal_files. by rewrite send_message_one Hu Hl.
Qed.

Lemma create_open_failure a w path e :
  accepted a = true -> files a = PList [PStr path] ->
  is_web_url path = false -> is_local_file path = true ->
  os_open path = Some e ->
  create a w = (Raise (UnboundLocalError "file"), w).
Proof.
  intros Ha Hf Hu Hl Ho. rewrite create_accepted // constructed_run Hf.
  simpl normal_files. by rewrite send_message_one Hu Hl multipart_post_run Ho.
Qed.

Lemma create_multipart_run a w path :
  accepted a = true -> files a = PList [PStr path] ->
  is_web_url path = false -> is_local_file path = true ->
  os_open path = None ->
  let fields := multipart_fields (post_data_of a (files a) (attachments a)) in
  let req := multipart_request fields (Encodable (basename path) (next_file w)) in
  create a w =
  if all_appendable fields
  then (constructed (respond (sent w) req), after_upload w [req])
  else (Raise (TypeError "Cannot create payload"), after_upload w []).
Proof.
  intros Ha Hf Hu Hl Ho. rewrite create_accepted // constructed_run Hf.
  simpl normal_files. rewrite send_message_one Hu Hl multipart_post_run Ho.
  cbv zeta.
  by destruct (all_appendable _).
Qed.

(** C5: when [files] is absent, empty or a single web URL, the request
    issued is one JSON POST to the messages endpoint whose body is the
    assembled post-data; a call that fails a check issues no request at
    all.  [PostJson] carries no headers. *)
Theorem create_json_post a w :
  (files a = PNone \/ files a = PList [] \/
   exists url, files a = PList [PStr url] /\ is_web_url url = true) ->
  let req := PostJson API_ENDPOINT
               (post_data_of a (normal_files (files a)) (attachments a)) in
  (accepted a = true ->
     create a w = (constructed (respond (sent w) req), log_request req w) /\
     requests_of (create a) w = [req]) /\
  (accepted a = false ->
     requests_of (create a) w = [] /\
     exists e, outcome (create a w) = Raise e /\ validation_error e).
Proof.
  intros Hf req. split; intros Ha.
  - pose proof (create_json_run a w Ha Hf) as Hrun. split; [done|].
    apply requests_of_logged. by rewrite Hrun.
  - destruct (create_rejected a w Ha) as (e & Hrun & He). split.
    + apply requests_of_silent. by rewrite Hrun.
    + exists e. by rewrite Hrun.
Qed.

(** C7: two or more [files] entries raise a validation error with the
    world untouched, so before any request; the error is the ValueError
    about the single file once the type checks before it pass.  An empty
    or absent [files] is treated as absent: the local becomes [None], the
    post-data has no [files] key and the only request a call can issue is
    the JSON POST. *)
Theorem create_files_count a w :
  (forall items, files a = PList items -> 2 <= length items ->
     (exists e, create a w = (Raise e, w) /\ validation_error e) /\
     requests_of (create a) w = [] /\
     (scalars_accepted a = true ->
      type_ok (attachments a) [Tlist] true = true ->
      create a w = (Raise (ValueError files_length_message), w))) /\
  (files a = PNone \/ files a = PList [] ->
   dict_get "files" (request_parameters a) = None ->
   let post_data := post_data_of a (normal_files (files a)) (attachments a) in
   normal_files (files a) = PNone /\
   dict_get "files" post_data = None /\
   (accepted a = true ->
      requests_of (create a) w = [PostJson API_ENDPOINT post_data]) /\
   (accepted a = false -> requests_of (create a) w = [])).
Proof.
  split.
  - intros items Hf Hlen.
    assert (Hrej : accepted a = false).
    { unfold accepted. rewrite Hf. destruct items as [|x [|y l]]; simpl in *; try lia.
      destruct x; by rewrite andb_false_r. }
    destruct (create_rejected a w Hrej) as (e & Hrun & He).
    split; [by exists e|]. split.
    + apply requests_of_silent. by rewrite Hrun.
    + unfold scalars_accepted.
      intros [[[[H1 H2]%andb_prop H3]%andb_prop H4]%andb_prop H5]%andb_prop Hal.
      assert (Hfl : type_ok (files a) [Tlist] true = true) by by rewrite Hf.
      unfold create. do 7 pass_check. run_bind.
      by rewrite Hf normalize_files_many.
  - intros Hf Hkw post_data.
    assert (Hn : normal_files (files a) = PNone) by by destruct Hf as [->| ->].
    split; [done|]. split.
    + subst post_data. rewrite Hn. apply from_items_absent; [done|].
      intros v Hv. repeat (apply elem_of_cons in Hv as [Hv|Hv]; [by inversion Hv|]).
      by apply elem_of_nil in Hv.
    + assert (Hshape : files a = PNone \/ files a = PList [] \/
                       exists url, files a = PList [PStr url] /\ is_web_url url = true)
        by (destruct Hf; auto).
      split; intros Ha.
      * apply requests_of_logged. by rewrite create_json_run.
      * destruct (create_rejected a w Ha) as (e & Hrun & He).
        apply requests_of_silent. by rewrite Hrun.
Qed.

Lemma requests_of_app {A : Type} (m : M A) w reqs :
  sent (final (m w)) = sent w ++ reqs -> requests_of m w = reqs.
Proof. unfold requests_of. intros ->. by rewrite drop_app_length. Qed.

Lemma files_accepted_cases files :
  files_accepted files = true ->
  normal_files files = PNone \/
  exists path, files = PList [PStr path] /\ normal_files files = files.
Proof.
  destruct files as [| | | |[|[] []]| |]; try done; auto.
  intros _. right. by eexists.
Qed.

(** The worlds a call of create can end in. *)
Lemma create_world a w :
  final (create a w) = w \/
  (exists req, final (create a w) = log_request req w) \/
  (exists reqs, final (create a w) = after_upload w reqs).
Proof.
  destruct (accepted a) eqn:Ha.
  - rewrite create_accepted // constructed_run. simpl.
    pose proof Ha as Hf. unfold accepted in Hf.
    apply andb_prop in Hf as [[_ Hf]%andb_prop _].
    destruct (files_accepted_cases _ Hf) as [->|(path & Hp & ->)].
    + rewrite send_message_none. right. left. by eexists.
    + rewrite Hp send_message_one.
      destruct (is_web_url path); [right; left; by eexists|].
      destruct (is_local_file path); [|by left].
      rewrite multipart_post_run. destruct (os_open path); [by left|].
      cbv zeta. destruct (all_appendable _); right; right; by eexists.
  - destruct (create_rejected a w Ha) as (e & -> & _). by left.
Qed.

(** C3: on the local-file multipart path every file object the call
    creates is closed when the call ends, whatever its outcome: a
    response, an error of the session, an error while the writer is
    filled, or a failure to open (no file object is made then).  No file
    stays open that was not open before, and when the file opens exactly
    one file object is made. *)
Theorem create_closes_file a w path :
  accepted a = true -> files a = PList [PStr path] ->
  is_web_url path = false -> is_local_file path = true ->
  let w' := final (create a w) in
  (forall f, next_file w <= f < next_file w' -> f ∉ open_files w') /\
  open_files w' ⊆ open_files w /\
  (os_open path = None -> next_file w' = S (next_file w)).
Proof.
  clear respond_items. intros Ha Hf Hu Hl w'. subst w'. split; [|split].
  - intros f Hrange.
    destruct (create_world a w) as [E|[[req E]|[reqs E]]];
      rewrite E in Hrange |- *; simpl in *; [lia..|].
    assert (f = next_file w) as -> by lia.
    rewrite elem_of_difference elem_of_singleton. tauto.
  - destruct (create_world a w) as [E|[[req E]|[reqs E]]];
      rewrite E; simpl; [done..|].
    intros f [[Hf'%elem_of_singleton|Hf']%elem_of_union Hn]%elem_of_difference;
      [|done].
    by apply not_elem_of_singleton in Hn.
  - intros Ho. rewrite (create_multipart_run a w path) //. cbv zeta.
    by destruct (all_appendable _).
Qed.

(** The two [pop] calls of lines 233-234 leave the attachments field in
    place whenever the call gave one. *)
Lemma multipart_fields_keep_attachments a files attachments :
  attachments <> PNone ->
  dict_get "attachments" (multipart_fields (post_data_of a files attachments)) =
  Some attachments.
Proof.
  intros Hatt. unfold multipart_fields.
  rewrite dict_get_pop_ne; [done|]. rewrite dict_get_pop_ne; [done|].
  unfold post_data_of, dict_from_items_with_values, create_items. simpl fold_left.
  by apply (add_items_last "attachments" attachments
              [("roomId", roomId a); ("toPersonId", toPersonId a);
               ("toPersonEmail", toPersonEmail a); ("text", text a);
               ("markdown", markdown a); ("files", files)]).
Qed.

(** *** The mappings sent *)

Lemma list_body_run la w :
  list_body la w =
  if list_accepted la
  then (respond_items (sent w) (GetItems API_ENDPOINT (list_params la)),
        log_request (GetItems API_ENDPOINT (list_params la)) w)
  else (Raise (TypeError "unexpected argument type"), w).
Proof.
  unfold list_body, list_accepted.
  repeat (run_bind;
          match goal with
          | |- context [check_type ?x ?t ?o ?w0] =>
              let E := fresh "E" in
              destruct (type_ok x t o) eqn:E;
              [rewrite (check_type_pass x t o w0 E)
              |rewrite (check_type_fail x t o w0 E); by rewrite ?andb_false_r]
          end; cbv beta iota).
  done.
Qed.

Lemma create_requests a w :
  let post_data := post_data_of a (normal_files (files a)) (attachments a) in
  Forall (fun req => req = PostJson API_ENDPOINT post_data \/
                     exists file, req = multipart_request (multipart_fields post_data) file)
         (requests_of (create a) w).
Proof.
  intros post_data. subst post_data. unfold requests_of.
  destruct (accepted a) eqn:Ha.
  - pose proof Ha as Hf. unfold accepted in Hf.
    apply andb_prop in Hf as [[_ Hf]%andb_prop _].
    destruct (files_accepted_cases _ Hf) as [Hn|(path & Hp & Hn)].
    + assert (Hshape : files a = PNone \/ files a = PList [] \/
                exists url, files a = PList [PStr url] /\ is_web_url url = true).
      { destruct (files a) as [| | | |[|]| |]; try done; auto. }
      rewrite create_json_run //. simpl. rewrite drop_app_length.
      constructor; [by left | constructor].
    + destruct (is_web_url path) eqn:Hu.
      { rewrite create_json_run //; [by eauto|]. simpl. rewrite drop_app_length.
        constructor; [by left | constructor]. }
      destruct (is_local_file path) eqn:Hl.
      2:{ rewrite (create_invalid_file a w path) //. simpl. rewrite drop_all.
          constructor. }
      destruct (os_open path) as [e|] eqn:Ho.
      { rewrite (create_open_failure a w path e) //. simpl. rewrite drop_all.
        constructor. }
      rewrite Hn (create_multipart_run a w path Ha Hp Hu Hl Ho).
      cbv zeta. destruct (all_appendable _); simpl; rewrite drop_app_length.
      * constructor; [right; by eexists | constructor].
      * constructor.
  - destruct (create_rejected a w Ha) as (e & Hrun & _).
    rewrite Hrun. simpl. rewrite drop_all. constructor.
Qed.

Ltac item_cases H :=
  repeat (apply elem_of_cons in H as [H|H]; [inversion H; subst; clear H|]);
  [..|by apply elem_of_nil in H].

Lemma create_unset_absent a files attachments :
  extra_only create_parameter_names (request_parameters a) ->
  unset_absent (create_items a files attachments) (post_data_of a files attachments).
Proof.
  unfold extra_only, create_parameter_names. intros Hkw.
  repeat (apply Forall_cons in Hkw as [? Hkw]).
  intros k Hk. unfold create_items in Hk.
  item_cases Hk; (apply from_items_absent; [done|]); intros v Hv;
    unfold create_items in Hv; item_cases Hv; congruence.
Qed.

Lemma list_unset_absent la :
  extra_only list_parameter_names (l_request_parameters la) ->
  unset_absent (list_items la) (list_params la).
Proof.
  unfold extra_only, list_parameter_names. intros Hkw.
  repeat (apply Forall_cons in Hkw as [? Hkw]).
  intros k Hk. unfold list_items in Hk.
  item_cases Hk; (apply from_items_absent; [done|]); intros v Hv;
    unfold list_items in Hv; item_cases Hv; congruence.
Qed.

(** C8: the mapping sent by list and by create (the JSON body, or the
    fields of the multipart body) has no entry whose value is [None], and
    every parameter left at [None] has no key in it.  The keyword
    dictionary of a call binds none of the declared parameter names. *)
Theorem unset_parameters_absent la a w :
  extra_only list_parameter_names (l_request_parameters la) ->
  extra_only create_parameter_names (request_parameters a) ->
  let params := list_params la in
  let items := create_items a (normal_files (files a)) (attachments a) in
  let post_data := post_data_of a (normal_files (files a)) (attachments a) in
  (Forall (fun req => req = GetItems API_ENDPOINT params)
          (requests_of (list_body la) w) /\
   no_null params /\ unset_absent (list_items la) params) /\
  (Forall (fun req => req = PostJson API_ENDPOINT post_data \/
                      exists file,
                        req = multipart_request (multipart_fields post_data) file)
          (requests_of (create a) w) /\
   no_null post_data /\ unset_absent items post_data /\
   no_null (multipart_fields post_data) /\
   unset_absent items (multipart_fields post_data)).
Proof.
  intros Hl Hc params items post_data. split; [split; [|split]|].
  - rewrite /requests_of list_body_run. destruct (list_accepted la); simpl.
    + rewrite drop_app_length. by repeat constructor.
    + rewrite drop_all. constructor.
  - apply from_items_no_null.
  - by apply list_unset_absent.
  - pose proof (create_unset_absent a (normal_files (files a)) (attachments a) Hc)
      as Habs.
    split; [apply create_requests|]. split; [apply from_items_no_null|].
    split; [done|]. split.
    + unfold multipart_fields. do 2 apply no_null_pop. apply from_items_no_null.
    + intros k Hk. unfold multipart_fields. do 2 apply dict_get_pop_none.
      by apply Habs.
Qed.

(** *** The generator container *)

Lemma set_generator_twice g st st' w :
  set_generator g st (set_generator g st' w) = set_generator g st w.
Proof. unfold set_generator. simpl. by rewrite insert_insert_eq. Qed.

Lemma consume_suspended fuel pending g w :
  generators w !! g = Some (GenSuspended pending) ->
  length pending < fuel ->
  consume fuel g w =
  (Ok (Some (map (object_factory OBJECT_TYPE) pending)),
   set_generator g GenFinished w).
Proof.
  revert pending w. induction fuel as [|fuel IH]; intros pending w Hg Hlen; [lia|].
  simpl. run_bind. unfold anext. rewrite Hg.
  destruct pending as [|item rest]; simpl; [done|].
  run_bind. rewrite (IH rest).
  - simpl. apply lookup_insert_eq.
  - simpl in Hlen. lia.
  - by rewrite set_generator_twice.
Qed.

Lemma consume_created fuel la items g w :
  generators w !! g = Some (GenCreated la) ->
  list_accepted la = true ->
  respond_items (sent w) (GetItems API_ENDPOINT (list_params la)) = Ok items ->
  length items < fuel ->
  consume fuel g w =
  (Ok (Some (map (object_factory OBJECT_TYPE) items)),
   set_generator g GenFinished
     (log_request (GetItems API_ENDPOINT (list_params la)) w)).
Proof.
  intros Hg Hla Hresp Hlen. destruct fuel as [|fuel]; [lia|].
  simpl. run_bind. unfold anext. rewrite Hg list_body_run Hla Hresp.
  destruct items as [|item rest]; simpl; [done|].
  run_bind. rewrite (consume_suspended fuel rest).
  - simpl. apply lookup_insert_eq.
  - simpl in Hlen. lia.
  - by rewrite set_generator_twice.
Qed.

(** A failing session still received the request. *)
Lemma consume_failure fuel la e g w :
  generators w !! g = Some (GenCreated la) ->
  list_accepted la = true ->
  respond_items (sent w) (GetItems API_ENDPOINT (list_params la)) = Raise e ->
  consume (S fuel) g w =
  (Raise e,
   set_generator g GenFinished
     (log_request (GetItems API_ENDPOINT (list_params la)) w)).
Proof.
  intros Hg Hla Hresp. simpl. run_bind. unfold anext.
  by rewrite Hg list_body_run Hla Hresp.
Qed.

Lemma anext_other g g' w :
  g <> g' -> generators (final (anext g w)) !! g' = generators w !! g'.
Proof.
  intros Hne. unfold anext.
  destruct (generators w !! g) as [[la|pending|]|]; [| |done..].
  - rewrite list_body_run.
    destruct (list_accepted la); [|by simpl; rewrite lookup_insert_ne].
    destruct (respond_items _ _) as [[|item rest]|e]; simpl;
      by rewrite lookup_insert_ne.
  - destruct pending; simpl; by rewrite lookup_insert_ne.
Qed.

(** C9: every iteration of the container returned by list starts a new
    generator from the arguments of the original call.  Iterating it twice
    to the end hands the session two requests, both for the messages
    endpoint with the parameters of the call, and yields the objects made
    of the items each request returned; advancing one generator leaves the
    cursor of every other generator as it was. *)
Theorem list_restartable la w n1 n2 items1 items2 :
  let req := GetItems API_ENDPOINT (list_params la) in
  list_accepted la = true ->
  respond_items (sent w) req = Ok items1 ->
  respond_items (sent w ++ [req]) req = Ok items2 ->
  length items1 < n1 -> length items2 < n2 ->
  outcome (iterate_twice (list_ la) n1 n2 w) =
    Ok (Some (map (object_factory OBJECT_TYPE) items1),
        Some (map (object_factory OBJECT_TYPE) items2)) /\
  requests_of (iterate_twice (list_ la) n1 n2) w = [req; req] /\
  (forall g g' w', g <> g' ->
     generators (final (anext g w')) !! g' = generators w' !! g').
Proof.
  intros req Hla H1 H2 Hn1 Hn2.
  assert (Hrun : exists w', iterate_twice (list_ la) n1 n2 w =
            (Ok (Some (map (object_factory OBJECT_TYPE) items1),
                 Some (map (object_factory OBJECT_TYPE) items2)), w') /\
            sent w' = sent w ++ [req; req]).
  { unfold iterate_twice, list_. run_bind. unfold aiter at 1. cbv beta iota.
    run_bind. rewrite (consume_created n1 la items1); simpl; try done.
    { apply lookup_insert_eq. }
    run_bind. unfold aiter at 1. cbv beta iota.
    run_bind. rewrite (consume_created n2 la items2); simpl; try done.
    { apply lookup_insert_eq. }
    eexists. split; [done|]. simpl. by rewrite -app_assoc. }
  destruct Hrun as (w' & Hrun & Hsent). split; [by rewrite Hrun|]. split.
  - apply requests_of_app. by rewrite Hrun.
  - intros g g' w0. apply anext_other.
Qed.

(** *** get *)

(** C10, as the code has it: get checks that [messageId] is a string and
    nothing more.  Any string, the empty one included, goes into one GET of
    messages/{messageId}, and the object made of the answer is returned; an
    error of the session is passed on.  Anything that is not a string is
    refused with a TypeError and no request. *)
Theorem get_checks_type messageId w :
  (forall id, messageId = PStr id ->
     let req := Get (API_ENDPOINT +:+ "/" +:+ id) in
     get messageId w = (constructed (respond (sent w) req), log_request req w) /\
     requests_of (get messageId) w = [req]) /\
  (isinstance messageId Tstr = false ->
     get messageId w = (Raise (TypeError "unexpected argument type"), w) /\
     requests_of (get messageId) w = []).
Proof.
  split.
  - intros id -> req.
    assert (Hrun : get (PStr id) w =
              (constructed (respond (sent w) req), log_request req w)).
    { unfold get, mbind, M_bind, mret, M_ret, check_type, session_call. simpl.
      by destruct (respond (sent w) _). }
    split; [done|]. apply requests_of_logged. by rewrite Hrun.
  - intros Hty.
    assert (Hrun : get messageId w =
              (Raise (TypeError "unexpected argument type"), w)).
    { unfold get. run_bind. rewrite check_type_fail //.
      unfold type_ok. simpl. by rewrite Hty. }
    split; [done|]. apply requests_of_silent. by rewrite Hrun.
Qed.

(** *** Further properties: delete *)

(** X1: delete checks that [messageId] is a string and nothing more.  A
    string goes into one DELETE of messages/{messageId}; the call returns
    nothing on success and passes an error of the session on.  Anything
    that is not a string is refused with a TypeError and no request. *)
Theorem delete_run messageId w :
  (forall id, messageId = PStr id ->
     let req := Delete (API_ENDPOINT +:+ "/" +:+ id) in
     delete messageId w =
       (match respond (sent w) req with
        | Ok _ => Ok tt
        | Raise e => Raise e
        end, log_request req w) /\
     requests_of (delete messageId) w = [req]) /\
  (isinstance messageId Tstr = false ->
     delete messageId w = (Raise (TypeError "unexpected argument type"), w) /\
     requests_of (delete messageId) w = []).
Proof.
  split.
  - intros id -> req.
    assert (Hrun : delete (PStr id) w =
              (match respond (sent w) req with
               | Ok _ => Ok tt
               | Raise e => Raise e
               end, log_request req w)).
    { unfold delete, mbind, M_bind, mret, M_ret, check_type, session_call. simpl.
      by destruct (respond (sent w) _). }
    split; [done|]. apply requests_of_logged. by rewrite Hrun.
  - intros Hty.
    assert (Hrun : delete messageId w =
              (Raise (TypeError "unexpected argument type"), w)).
    { unfold delete. run_bind. rewrite check_type_fail //.
      unfold type_ok. simpl. by rewrite Hty. }
    split; [done|]. apply requests_of_silent. by rewrite Hrun.
Qed.

(** *** Further properties: create *)

Lemma files_accepted_shape files :
  files_accepted files = true ->
  files = PNone \/ files = PList [] \/ exists path, files = PList [PStr path].
Proof.
  destruct files as [| | | |[|[] []]| |]; try done; auto.
  intros _. right. right. by eexists.
Qed.

(** The session's log after a call of create. *)
Lemma create_sent_cases a w :
  sent (final (create a w)) = sent w \/
  exists req, sent (final (create a w)) = sent w ++ [req].
Proof.
  destruct (accepted a) eqn:Ha.
  - pose proof Ha as Hf. unfold accepted in Hf.
    apply andb_prop in Hf as [[_ Hf]%andb_prop _].
    destruct (files_accepted_shape _ Hf) as [Hn|[Hn|[path Hp]]].
    + rewrite create_json_run //; [by auto|]. right. by eexists.
    + rewrite create_json_run //; [by auto|]. right. by eexists.
    + destruct (is_web_url path) eqn:Hu.
      { rewrite create_json_run //; [by eauto 6|]. right. by eexists. }
      destruct (is_local_file path) eqn:Hl.
      2:{ rewrite (create_invalid_file a w path) //. by left. }
      destruct (os_open path) as [e|] eqn:Ho.
      { rewrite (create_open_failure a w path e) //. by left. }
      rewrite (create_multipart_run a w path Ha Hp Hu Hl Ho). cbv zeta.
      destruct (all_appendable _); simpl.
      * right. by eexists.
      * left. by rewrite app_nil_r.
  - destruct (create_rejected a w Ha) as (e & -> & _). by left.
Qed.

(** X2: whatever its arguments, a call of create hands the session at
    most one request, and leaves the requests made before it as they
    were. *)
Theorem create_at_most_one_request a w :
  length (requests_of (create a) w) <= 1 /\
  sent (final (create a w)) = sent w ++ requests_of (create a) w.
Proof.
  unfold requests_of.
  destruct (create_sent_cases a w) as [E|[req E]]; rewrite E.
  - rewrite drop_all app_nil_r. simpl. split; [lia|done].
  - rewrite drop_app_length. simpl. split; [lia|done].
Qed.

Lemma dict_pop_absent k d : dict_get k d = None -> dict_pop k d = d.
Proof.
  induction d as [|[k' v'] d IH]; simpl; [done|].
  destruct (String.eqb k k'); [done|]. intros H. by rewrite IH.
Qed.

(** X3: the multipart upload.  When the single [files] entry is a local
    file that opens, the body starts with the file part, named files and
    carrying the base name of the path, followed by one form-data part per
    field of the post-data in its order; no field is named files; the
    Content-type header carries the writer's boundary; the answer of the
    session, or its error, is the outcome, and the file is closed.  When
    a field cannot be made into a payload the call raises TypeError, sends
    nothing, and the file is closed all the same.  A keyword argument
    spelled attachements is dropped from the fields. *)
Theorem create_multipart_upload a w path :
  accepted a = true -> files a = PList [PStr path] ->
  is_web_url path = false -> is_local_file path = true ->
  os_open path = None ->
  let fields := multipart_fields (post_data_of a (files a) (attachments a)) in
  let req :=
    PostData API_ENDPOINT
      [("Content-type", "multipart/form-data; boundary=" +:+ boundary)]
      (Mp (Part (FileBody (next_file w))
                [("Content-Disposition", file_disposition (basename path))]
           :: map (fun kv => Part (ValueBody (snd kv))
                               [("Content-Disposition", field_disposition (fst kv))])
                  fields)
          boundary) in
  (all_appendable fields = true ->
     create a w = (constructed (respond (sent w) req), after_upload w [req])) /\
  (all_appendable fields = false ->
     create a w = (Raise (TypeError "Cannot create payload"), after_upload w [])) /\
  (next_file w ∉ open_files (final (create a w))) /\
  dict_get "files" fields = None /\
  dict_get "attachements" fields = None /\
  (dict_get "attachements" (request_parameters a) = None ->
   fields = dict_pop "files" (post_data_of a (files a) (attachments a))).
Proof.
  intros Ha Hf Hu Hl Ho fields req.
  pose proof (create_multipart_run a w path Ha Hf Hu Hl Ho) as Hrun.
  cbv zeta in Hrun. fold fields in Hrun.
  split; [|split; [|split; [|split; [|split]]]].
  - intros Hall. by rewrite Hrun Hall.
  - intros Hall. by rewrite Hrun Hall.
  - rewrite Hrun. destruct (all_appendable fields); simpl;
      rewrite elem_of_difference elem_of_singleton; tauto.
  - subst fields. unfold multipart_fields.
    apply dict_get_pop_none, dict_get_pop_eq.
  - subst fields. unfold multipart_fields. apply dict_get_pop_eq.
  - intros Hkw. subst fields. unfold multipart_fields.
    apply dict_pop_absent, dict_get_pop_none, from_items_absent; [done|].
    intros v Hv. unfold create_items in Hv. item_cases Hv.
Qed.

(** A call that fails a check without a [files] list of two or more raises
    the TypeError of [check_type]. *)
Lemma create_rejected_type a w :
  accepted a = false -> len (files a) <= 1 ->
  create a w = (Raise (TypeError "unexpected argument type"), w).
Proof.
  unfold accepted, scalars_accepted, create. intros H Hlen.
  repeat (run_bind;
          match goal with
          | |- context [check_type ?x ?t ?o ?w0] =>
              let E := fresh "E" in
              destruct (type_ok x t o) eqn:E;
              [rewrite (check_type_pass x t o w0 E)
              |rewrite (check_type_fail x t o w0 E); done]
          end; cbv beta iota).
  run_bind.
  destruct (files_accepted (files a)) eqn:Hf.
  - rewrite normalize_files_accepted //. run_bind.
    rewrite process_attachments_run //.
    by destruct (attachments_accepted (attachments a)) eqn:Hatt.
  - destruct (files a) as [| | | |[|x [|y l]]| |]; try done.
    + by destruct x.
    + simpl in Hlen. lia.
Qed.

(** X4: the element checks of lines 202 and 209.  A [files] list whose
    single entry is not a string, and an [attachments] list with an element
    that is neither a mapping nor a card, are refused with a TypeError
    before anything is sent or opened. *)
Theorem create_element_checks a w :
  (forall x, files a = PList [x] -> isinstance x Tstr = false ->
     create a w = (Raise (TypeError "unexpected argument type"), w)) /\
  (forall items x, attachments a = PList items -> x ∈ items ->
     isinstance x Tdict = false -> isinstance x TAdaptiveCard = false ->
     len (files a) <= 1 ->
     create a w = (Raise (TypeError "unexpected argument type"), w)).
Proof.
  split.
  - intros x Hf Hx. apply create_rejected_type; [|by rewrite Hf].
    unfold accepted. rewrite Hf. destruct x; try done; by rewrite andb_false_r.
  - intros items x Hatt Hin Hd Hc Hlen. apply create_rejected_type; [|done].
    unfold accepted. rewrite Hatt. simpl.
    assert (Hall : forallb (fun x => type_ok x [Tdict; TAdaptiveCard] false) items
                   = false).
    { apply not_true_is_false. intros Hall.
      rewrite forallb_forall in Hall. apply list_elem_of_In in Hin.
      apply Hall in Hin. unfold type_ok in Hin. simpl in Hin.
      rewrite Hd Hc in Hin. done. }
    by rewrite Hall andb_false_r.
Qed.

(** X5: an empty [attachments] list is not treated as absent.  Unlike an
    empty [files] list, which line 204 turns into [None], it stays in the
    post-data and is sent under the key attachments. *)
Theorem create_empty_attachments_sent a w :
  accepted a = true -> attachments a = PList [] ->
  (files a = PNone \/ files a = PList [] \/
   exists url, files a = PList [PStr url] /\ is_web_url url = true) ->
  let post_data := post_data_of a (normal_files (files a)) (attachments a) in
  requests_of (create a) w = [PostJson API_ENDPOINT post_data] /\
  dict_get "attachments" post_data = Some (PList []).
Proof.
  intros Ha Hatt Hf post_data. split.
  - apply requests_of_logged. by rewrite create_json_run.
  - subst post_data. rewrite Hatt.
    unfold post_data_of, dict_from_items_with_values, create_items. simpl fold_left.
    by apply (add_items_last "attachments" (PList [])
                [("roomId", roomId a); ("toPersonId", toPersonId a);
                 ("toPersonEmail", toPersonEmail a); ("text", text a);
                 ("markdown", markdown a); ("files", normal_files (files a))]).
Qed.

(** X6: create opens a file only on the multipart path.  Unless the single
    [files] entry is a local file that is no web URL, the call creates no
    file object and leaves the open files as they were. *)
Theorem create_opens_no_file_elsewhere a w :
  ~ (exists path, files a = PList [PStr path] /\
                  is_web_url path = false /\ is_local_file path = true) ->
  next_file (final (create a w)) = next_file w /\
  open_files (final (create a w)) = open_files w.
Proof.
  intros Hno. destruct (accepted a) eqn:Ha.
  - pose proof Ha as Hf. unfold accepted in Hf.
    apply andb_prop in Hf as [[_ Hf]%andb_prop _].
    destruct (files_accepted_shape _ Hf) as [Hn|[Hn|[path Hp]]].
    + rewrite create_json_run //. by auto.
    + rewrite create_json_run //. by auto.
    + destruct (is_web_url path) eqn:Hu.
      { rewrite create_json_run //. by eauto 6. }
      destruct (is_local_file path) eqn:Hl.
      { exfalso. apply Hno. by exists path. }
      by rewrite (create_invalid_file a w path).
  - by destruct (create_rejected a w Ha) as (e & -> & _).
Qed.

(** *** Further properties: what is given is sent *)




(** *** Further properties: list *)

(** X8: list checks its arguments when the iteration starts.  The first
    step of a generator whose arguments fail a check ([roomId] left out,
    for one) raises TypeError and sends nothing; the generator is finished
    by it, and the next step only reports the end. *)
Theorem list_validates_on_first_step la g w :
  generators w !! g = Some (GenCreated la) -> list_accepted la = false ->
  anext g w =
    (Raise (TypeError "unexpected argument type"), set_generator g GenFinished w) /\
  requests_of (anext g) w = [] /\
  anext g (final (anext g w)) = (Ok None, final (anext g w)).
Proof.
  intros Hg Hla.
  assert (Hrun : anext g w =
            (Raise (TypeError "unexpected argument type"),
             set_generator g GenFinished w)).
  { unfold anext. by rewrite Hg list_body_run Hla. }
  split; [done|]. split.
  - apply requests_of_silent. by rewrite Hrun.
  - rewrite Hrun. unfold anext. simpl. by rewrite lookup_insert_eq.
Qed.

(** X9: an error of the session ends the iteration.  The error raised by
    the request for the items is the outcome of the iteration, after that
    one request; the generator is finished, and iterating it again yields
    nothing and asks the session nothing. *)
Theorem list_session_error la g w e fuel :
  let req := GetItems API_ENDPOINT (list_params la) in
  generators w !! g = Some (GenCreated la) -> list_accepted la = true ->
  respond_items (sent w) req = Raise e ->
  outcome (consume (S fuel) g w) = Raise e /\
  requests_of (consume (S fuel) g) w = [req] /\
  consume (S fuel) g (final (consume (S fuel) g w)) =
    (Ok (Some []), final (consume (S fuel) g w)).
Proof.
  intros req Hg Hla Hresp.
  pose proof (consume_failure fuel la e g w Hg Hla Hresp) as Hrun.
  split; [by rewrite Hrun|]. split.
  - apply requests_of_logged. by rewrite Hrun.
  - rewrite Hrun. simpl. run_bind. unfold anext. simpl.
    by rewrite lookup_insert_eq.
Qed.

End MessagesAPI.

(** ** The embedding on explicit inputs *)

Abbreviation demo_create :=
  (create Demo.is_web_url Demo.is_local_file Demo.os_open Demo.basename
          Demo.make_attachment Demo.appendable Demo.boundary Demo.respond
          Demo.object_factory).

Abbreviation lenient_create :=
  (create Demo.is_web_url Demo.is_local_file Demo.os_open Demo.basename
          Demo.make_attachment Demo.any_payload Demo.boundary Demo.respond
          Demo.object_factory).

Abbreviation demo_get := (get Demo.respond Demo.object_factory).

Abbreviation demo_list_body := (list_body Demo.respond_items).

Abbreviation demo_iterate_twice :=
  (iterate_twice Demo.respond_items Demo.object_factory).

(** C1, at [create(roomId="R1", text="hello", attachments=[card, mapping])]:
    the card reaches the session as the card object it was.  Line 211 tests
    the list [attachments], never a card, so [make_attachment] is not
    called; the list the specification asks for is a different one. *)
Theorem create_leaves_cards_unserialized :
  let a := Demo.to_room PNone Demo.card_and_mapping in
  requests_of (demo_create a) Demo.w0 =
    [PostJson API_ENDPOINT
       [("roomId", PStr "R1"); ("text", PStr "hello");
        ("attachments", Demo.card_and_mapping)]] /\
  serialized_as_specified Demo.make_attachment Demo.card_and_mapping =
    PList [Demo.make_attachment (PCard "c1");
           PDict [("contentType", PStr "text/plain")]] /\
  serialized_as_specified Demo.make_attachment Demo.card_and_mapping <>
    Demo.card_and_mapping.
Proof. repeat split; try reflexivity. discriminate. Qed.

(** C2, at [create(roomId="R1", text="hello", files=["/tmp/report.pdf"],
    attachments=[mapping])]: line 234 pops the key "attachements", so the
    attachments field is still among the fields the multipart body is
    built from.  With aiohttp's registry the writer refuses the list and
    nothing is posted; with a registry that accepted it, the body would
    carry a part named attachments. *)
Theorem create_multipart_keeps_attachments :
  let a := Demo.to_room (PList [PStr "/tmp/report.pdf"]) Demo.one_mapping in
  let fields := multipart_fields (post_data_of a (files a) (attachments a)) in
  fields = [("roomId", PStr "R1"); ("text", PStr "hello");
            ("attachments", Demo.one_mapping)] /\
  demo_create a Demo.w0 =
    (Raise (TypeError "Cannot create payload"), after_upload Demo.w0 []) /\
  requests_of (lenient_create a) Demo.w0 =
    [multipart_request Demo.boundary fields (Encodable "report.pdf" 0)].
Proof. repeat split; vm_compute; reflexivity. Qed.

(** C4, at [create(roomId="R1", text="hello", files=["/root/locked.bin"])],
    a file that exists and cannot be opened: [open] raises the I/O error
    before [file] is bound, the [finally] suite reads [file], and the
    caller gets UnboundLocalError in place of the I/O error. *)
Theorem create_open_failure_masked :
  let a := Demo.to_room (PList [PStr "/root/locked.bin"]) PNone in
  Demo.is_web_url "/root/locked.bin" = false /\
  Demo.is_local_file "/root/locked.bin" = true /\
  Demo.os_open "/root/locked.bin" = Some (OSError "Permission denied") /\
  demo_create a Demo.w0 = (Raise (UnboundLocalError "file"), Demo.w0).
Proof. repeat split. Qed.

(** C6, at [create(roomId="R1", text="hello", files=["nope"])]: a
    ValueError is raised and nothing is sent, but its message reads
    "vaild" where the docstring and the specification read "valid". *)
Theorem create_invalid_file_message :
  let a := Demo.to_room (PList [PStr "nope"]) PNone in
  demo_create a Demo.w0 = (Raise (ValueError files_invalid_message), Demo.w0) /\
  requests_of (demo_create a) Demo.w0 = [] /\
  files_invalid_message =
    "The `files` parameter does not contain a vaild URL or path to a local file." /\
  String.index 0 "does not contain a valid URL or path to a local file"
               files_invalid_message = None.
Proof. repeat split. Qed.

(** C10 as stated fails at [get(messageId)] with the empty string: the
    call is not refused, it sends GET messages/ to the session. *)
Lemma get_accepts_empty_string :
  ~ (exists e, demo_get (PStr EmptyString) Demo.w0 = (Raise e, Demo.w0)) /\
  requests_of (demo_get (PStr EmptyString)) Demo.w0 = [Get "messages/"].
Proof.
  split; [|reflexivity]. intros [e He]. vm_compute in He. discriminate.
Qed.

(** [create(roomId="R1", text="hello", files=["/tmp/report.pdf"])]: the
    file is opened, posted and closed. *)
Lemma create_closes_file_witness :
  let a := Demo.to_room (PList [PStr "/tmp/report.pdf"]) PNone in
  let w' := final (demo_create a Demo.w0) in
  (accepted a = true /\ files a = PList [PStr "/tmp/report.pdf"] /\
   Demo.is_web_url "/tmp/report.pdf" = false /\
   Demo.is_local_file "/tmp/report.pdf" = true) /\
  ((forall f, next_file Demo.w0 <= f < next_file w' -> f ∉ open_files w') /\
   open_files w' ⊆ open_files Demo.w0 /\
   (Demo.os_open "/tmp/report.pdf" = None -> next_file w' = S (next_file Demo.w0))).
Proof.
  intros a w'. split.
  - repeat split; reflexivity.
  - exact (create_closes_file Demo.is_web_url Demo.is_local_file Demo.os_open
             Demo.basename Demo.make_attachment Demo.appendable Demo.boundary
             Demo.respond Demo.object_factory a Demo.w0 "/tmp/report.pdf"
             eq_refl eq_refl eq_refl eq_refl).
Defined.

(** [create(roomId="R1", text="hello", files=["https://example.org/a.png"])] *)
Lemma create_json_post_witness :
  let a := Demo.to_room (PList [PStr "https://example.org/a.png"]) PNone in
  (files a = PNone \/ files a = PList [] \/
   exists url, files a = PList [PStr url] /\ Demo.is_web_url url = true) /\
  accepted a = true /\
  requests_of (demo_create a) Demo.w0 =
    [PostJson API_ENDPOINT
       [("roomId", PStr "R1"); ("text", PStr "hello");
        ("files", PList [PStr "https://example.org/a.png"])]].
Proof.
  intros a.
  assert (Hshape : files a = PNone \/ files a = PList [] \/
            exists url, files a = PList [PStr url] /\ Demo.is_web_url url = true).
  { right. right. exists "https://example.org/a.png". split; reflexivity. }
  split; [exact Hshape|]. split; [reflexivity|].
  exact (proj2 (proj1 (create_json_post Demo.is_web_url Demo.is_local_file
                         Demo.os_open Demo.basename Demo.make_attachment
                         Demo.appendable Demo.boundary Demo.respond
                         Demo.object_factory a Demo.w0 Hshape) eq_refl)).
Defined.

(** [create(roomId="R1", text="hello", files=["a.png", "b.png"])] is
    refused; [create(roomId="R1", text="hello", files=[])] posts JSON
    without a files key. *)
Lemma create_files_count_witness :
  let two := Demo.to_room (PList [PStr "a.png"; PStr "b.png"]) PNone in
  let none := Demo.to_room (PList []) PNone in
  (2 <= length [PStr "a.png"; PStr "b.png"] /\
   demo_create two Demo.w0 = (Raise (ValueError files_length_message), Demo.w0)) /\
  ((files none = PNone \/ files none = PList []) /\
   dict_get "files" (request_parameters none) = None /\
   requests_of (demo_create none) Demo.w0 =
     [PostJson API_ENDPOINT [("roomId", PStr "R1"); ("text", PStr "hello")]]).
Proof.
  intros two none. split.
  - assert (Hlen : 2 <= length [PStr "a.png"; PStr "b.png"]) by (simpl; lia).
    split; [exact Hlen|].
    exact (proj2 (proj2 (proj1 (create_files_count Demo.is_web_url
             Demo.is_local_file Demo.os_open Demo.basename Demo.make_attachment
             Demo.appendable Demo.boundary Demo.respond Demo.object_factory
             two Demo.w0) _ eq_refl Hlen)) eq_refl eq_refl).
  - split; [right; reflexivity|]. split; [reflexivity|].
    exact (proj1 (proj2 (proj2 (proj2 (create_files_count Demo.is_web_url
             Demo.is_local_file Demo.os_open Demo.basename Demo.make_attachment
             Demo.appendable Demo.boundary Demo.respond Demo.object_factory
             none Demo.w0) (or_intror eq_refl) eq_refl))) eq_refl).
Defined.

(** [list(roomId="R1", max=50)] and [create(roomId="R1", text="hello")] *)
Lemma unset_parameters_absent_witness :
  let la := Demo.room_listing in
  let a := Demo.to_room PNone PNone in
  (extra_only list_parameter_names (l_request_parameters la) /\
   extra_only create_parameter_names (request_parameters a)) /\
  (list_params la = [("roomId", PStr "R1"); ("max", PInt 50)] /\
   no_null (list_params la) /\ unset_absent (list_items la) (list_params la)) /\
  (post_data_of a PNone PNone = [("roomId", PStr "R1"); ("text", PStr "hello")] /\
   no_null (post_data_of a PNone PNone) /\
   unset_absent (create_items a PNone PNone) (post_data_of a PNone PNone)).
Proof.
  intros la a.
  assert (Hl : extra_only list_parameter_names (l_request_parameters la))
    by (repeat constructor).
  assert (Hc : extra_only create_parameter_names (request_parameters a))
    by (repeat constructor).
  split; [exact (conj Hl Hc)|].
  destruct (unset_parameters_absent Demo.is_web_url Demo.is_local_file
              Demo.os_open Demo.basename Demo.make_attachment Demo.appendable
              Demo.boundary Demo.respond Demo.respond_items Demo.object_factory
              la a Demo.w0 Hl Hc) as [[_ [Hn Hu]] [_ [Hn' [Hu' _]]]].
  split.
  - split; [reflexivity|]. exact (conj Hn Hu).
  - split; [reflexivity|]. exact (conj Hn' Hu').
Defined.

(** [list(roomId="R1", max=50)] iterated twice; the room has one message
    at the first request and two at the second. *)
Lemma list_restartable_witness :
  let la := Demo.room_listing in
  let req := GetItems API_ENDPOINT [("roomId", PStr "R1"); ("max", PInt 50)] in
  let message := Demo.object_factory OBJECT_TYPE (PDict [("id", PStr "M")]) in
  (list_accepted la = true /\ 1 < 5 /\ 2 < 5) /\
  outcome (demo_iterate_twice (list_ la) 5 5 Demo.w0) =
    Ok (Some [message], Some [message; message]) /\
  requests_of (demo_iterate_twice (list_ la) 5 5) Demo.w0 = [req; req].
Proof.
  intros la req message.
  assert (H1 : 1 < 5) by lia. assert (H2 : 2 < 5) by lia.
  split; [exact (conj eq_refl (conj H1 H2))|].
  destruct (list_restartable Demo.respond_items Demo.object_factory la Demo.w0
              5 5 [PDict [("id", PStr "M")]]
              [PDict [("id", PStr "M")]; PDict [("id", PStr "M")]]
              eq_refl eq_refl eq_refl H1 H2) as [Hout [Hreq _]].
  exact (conj Hout Hreq).
Defined.

(** [get("M1")] and [get(None)] *)
Lemma get_checks_type_witness :
  (PStr "M1" = PStr "M1" /\
   requests_of (demo_get (PStr "M1")) Demo.w0 = [Get "messages/M1"]) /\
  (isinstance PNone Tstr = false /\
   demo_get PNone Demo.w0 = (Raise (TypeError "unexpected argument type"), Demo.w0)).
Proof.
  split.
  - split; [reflexivity|].
    exact (proj2 (proj1 (get_checks_type Demo.respond Demo.object_factory
                           (PStr "M1") Demo.w0) "M1" eq_refl)).
  - split; [reflexivity|].
    exact (proj1 (proj2 (get_checks_type Demo.respond Demo.object_factory
                           PNone Demo.w0) eq_refl)).
Defined.

(** ** Further properties on explicit inputs *)

Abbreviation demo_delete := (delete Demo.respond).

Abbreviation demo_anext := (anext Demo.respond_items Demo.object_factory).

(** [delete("M1")] and [delete(7)] *)
Lemma delete_run_witness :
  (PStr "M1" = PStr "M1" /\
   demo_delete (PStr "M1") Demo.w0 =
     (Ok tt, log_request (Delete "messages/M1") Demo.w0)) /\
  (isinstance (PInt 7) Tstr = false /\
   demo_delete (PInt 7) Demo.w0 =
     (Raise (TypeError "unexpected argument type"), Demo.w0)).
Proof.
  split.
  - split; [reflexivity|].
    exact (proj1 (proj1 (delete_run Demo.respond (PStr "M1") Demo.w0)
                    "M1" eq_refl)).
  - split; [reflexivity|].
    exact (proj1 (proj2 (delete_run Demo.respond (PInt 7) Demo.w0) eq_refl)).
Defined.

(** [create(roomId="R1", text="hello", files=["/tmp/report.pdf"])] *)
Lemma create_multipart_upload_witness :
  let a := Demo.to_room (PList [PStr "/tmp/report.pdf"]) PNone in
  let req :=
    PostData API_ENDPOINT
      [("Content-type", "multipart/form-data; boundary=0123456789abcdef")]
      (Mp [Part (FileBody 0) [("Content-Disposition", file_disposition "report.pdf")];
           Part (ValueBody (PStr "R1"))
                [("Content-Disposition", field_disposition "roomId")];
           Part (ValueBody (PStr "hello"))
                [("Content-Disposition", field_disposition "text")]]
          Demo.boundary) in
  (accepted a = true /\ files a = PList [PStr "/tmp/report.pdf"] /\
   Demo.is_web_url "/tmp/report.pdf" = false /\
   Demo.is_local_file "/tmp/report.pdf" = true /\
   Demo.os_open "/tmp/report.pdf" = None /\
   all_appendable Demo.appendable
     (multipart_fields (post_data_of a (files a) (attachments a))) = true) /\
  demo_create a Demo.w0 =
    (Ok (Demo.object_factory OBJECT_TYPE (PDict [("id", PStr "M2")])),
     after_upload Demo.w0 [req]).
Proof.
  intros a req. split.
  - repeat split; reflexivity.
  - exact (proj1 (create_multipart_upload Demo.is_web_url Demo.is_local_file
                    Demo.os_open Demo.basename Demo.make_attachment
                    Demo.appendable Demo.boundary Demo.respond
                    Demo.object_factory a Demo.w0 "/tmp/report.pdf"
                    eq_refl eq_refl eq_refl eq_refl eq_refl) eq_refl).
Defined.

(** [create(roomId="R1", text="hello", files=[1])] and
    [create(roomId="R1", text="hello", attachments=["card"])] *)
Lemma create_element_checks_witness :
  let number := Demo.to_room (PList [PInt 1]) PNone in
  let text_card := Demo.to_room PNone (PList [PStr "card"]) in
  (files number = PList [PInt 1] /\ isinstance (PInt 1) Tstr = false /\
   demo_create number Demo.w0 =
     (Raise (TypeError "unexpected argument type"), Demo.w0)) /\
  (attachments text_card = PList [PStr "card"] /\
   PStr "card" ∈ [PStr "card"] /\
   isinstance (PStr "card") Tdict = false /\
   isinstance (PStr "card") TAdaptiveCard = false /\
   len (files text_card) <= 1 /\
   demo_create text_card Demo.w0 =
     (Raise (TypeError "unexpected argument type"), Demo.w0)).
Proof.
  intros number text_card. split.
  - split; [reflexivity|]. split; [reflexivity|].
    exact (proj1 (create_element_checks Demo.is_web_url Demo.is_local_file
                    Demo.os_open Demo.basename Demo.make_attachment
                    Demo.appendable Demo.boundary Demo.respond
                    Demo.object_factory number Demo.w0)
             (PInt 1) eq_refl eq_refl).
  - assert (Hin : PStr "card" ∈ [PStr "card"]) by left.
    assert (Hlen : len (files text_card) <= 1) by (simpl; lia).
    split; [reflexivity|]. split; [exact Hin|].
    split; [reflexivity|]. split; [reflexivity|]. split; [exact Hlen|].
    exact (proj2 (create_element_checks Demo.is_web_url Demo.is_local_file
                    Demo.os_open Demo.basename Demo.make_attachment
                    Demo.appendable Demo.boundary Demo.respond
                    Demo.object_factory text_card Demo.w0)
             [PStr "card"] (PStr "card") eq_refl Hin eq_refl eq_refl Hlen).
Defined.

(** [create(roomId="R1", text="hello", attachments=[])] *)
Lemma create_empty_attachments_sent_witness :
  let a := Demo.to_room PNone (PList []) in
  (accepted a = true /\ attachments a = PList [] /\
   (files a = PNone \/ files a = PList [] \/
    exists url, files a = PList [PStr url] /\ Demo.is_web_url url = true)) /\
  requests_of (demo_create a) Demo.w0 =
    [PostJson API_ENDPOINT
       [("roomId", PStr "R1"); ("text", PStr "hello"); ("attachments", PList [])]].
Proof.
  intros a.
  assert (Hshape : files a = PNone \/ files a = PList [] \/
            exists url, files a = PList [PStr url] /\ Demo.is_web_url url = true)
    by (left; reflexivity).
  split; [exact (conj eq_refl (conj eq_refl Hshape))|].
  exact (proj1 (create_empty_attachments_sent Demo.is_web_url Demo.is_local_file
                  Demo.os_open Demo.basename Demo.make_attachment
                  Demo.appendable Demo.boundary Demo.respond
                  Demo.object_factory a Demo.w0 eq_refl eq_refl Hshape)).
Defined.

(** [create(roomId="R1", text="hello", files=["https://example.org/a.png"])] *)
Lemma create_opens_no_file_elsewhere_witness :
  let a := Demo.to_room (PList [PStr "https://example.org/a.png"]) PNone in
  ~ (exists path, files a = PList [PStr path] /\
                  Demo.is_web_url path = false /\
                  Demo.is_local_file path = true) /\
  next_file (final (demo_create a Demo.w0)) = 0 /\
  open_files (final (demo_create a Demo.w0)) = ∅.
Proof.
  intros a.
  assert (Hno : ~ (exists path, files a = PList [PStr path] /\
                     Demo.is_web_url path = false /\
                     Demo.is_local_file path = true)).
  { intros (path & Hf & Hu & _). injection Hf as <-. discriminate Hu. }
  split; [exact Hno|].
  exact (create_opens_no_file_elsewhere Demo.is_web_url Demo.is_local_file
           Demo.os_open Demo.basename Demo.make_attachment Demo.appendable
           Demo.boundary Demo.respond Demo.object_factory a Demo.w0 Hno).
Defined.


(** [list()] without a room, iterated: the first step raises. *)
Lemma list_validates_on_first_step_witness :
  let la := ListArgs PNone PNone PNone PNone PNone [] in
  let w := final (aiter (list_ la) Demo.w0) in
  (generators w !! 0 = Some (GenCreated la) /\ list_accepted la = false) /\
  demo_anext 0 w =
    (Raise (TypeError "unexpected argument type"), set_generator 0 GenFinished w) /\
  requests_of (demo_anext 0) w = [].
Proof.
  intros la w.
  assert (Hg : generators w !! 0 = Some (GenCreated la)) by reflexivity.
  split; [exact (conj Hg eq_refl)|].
  destruct (list_validates_on_first_step Demo.respond_items Demo.object_factory
              la 0 w Hg eq_refl) as [Hrun [Hreq _]].
  exact (conj Hrun Hreq).
Defined.

(** [list(roomId="R1", max=50)] against a session that answers 404. *)
Lemma list_session_error_witness :
  let la := Demo.room_listing in
  let not_found := fun (_ : list request) (_ : request) =>
                     @Raise (list pyval) (ApiError 404 "Not Found") in
  let w := final (aiter (list_ la) Demo.w0) in
  (generators w !! 0 = Some (GenCreated la) /\ list_accepted la = true /\
   not_found (sent w) (GetItems API_ENDPOINT (list_params la)) =
     Raise (ApiError 404 "Not Found")) /\
  outcome (consume not_found Demo.object_factory 3 0 w) =
    Raise (ApiError 404 "Not Found") /\
  requests_of (consume not_found Demo.object_factory 3 0) w =
    [GetItems API_ENDPOINT [("roomId", PStr "R1"); ("max", PInt 50)]].
Proof.
  intros la not_found w.
  assert (Hg : generators w !! 0 = Some (GenCreated la)) by reflexivity.
  split; [exact (conj Hg (conj eq_refl eq_refl))|].
  destruct (list_session_error not_found Demo.object_factory la 0 w
              (ApiError 404 "Not Found") 2 Hg eq_refl eq_refl)
    as [Hout [Hreq _]].
  exact (conj Hout Hreq).
Defined.
